(** * integrations/databricks/dlt_expectations.py

    A shallow embedding of the Delta Live Tables decorator module: the
    host-engine resolver [_get_dlt_library] and the decorator factory
    [expect] with its call-time wrapper [wrapper_expect].

    Python objects the module only passes around (the engine module, the
    expectation configuration, the data context, call arguments) are
    abstract types.  The external collaborators (translator, factory,
    checkpoint runner, the engine's registration call, the decorated
    function) are functions that either return or raise; every call to
    one of them is recorded, in order, in a log. *)

From stdpp Require Import base option list strings gmap.

Open Scope string_scope.
Open Scope list_scope.

(** ** Python exceptions *)

(** The exceptions this module can surface: the built-in ones it meets,
    [UnsupportedExpectationConfiguration] of
    [integrations.databricks.exceptions] with its message, and
    [External], which carries whatever a collaborator raised; the
    wrapper has no handler, so such an exception propagates unchanged. *)
Inductive exn (E : Type) : Type :=
  | NameError (name : string)
  | UnboundLocalError (name : string)
  | AttributeError (attr : string)
  | ModuleNotFoundError (msg : string)
  | UnsupportedExpectationConfiguration (msg : string)
  | IndexError (msg : string)
  | External (e : E).

Arguments NameError {E} name.
Arguments UnboundLocalError {E} name.
Arguments AttributeError {E} attr.
Arguments ModuleNotFoundError {E} msg.
Arguments UnsupportedExpectationConfiguration {E} msg.
Arguments IndexError {E} msg.
Arguments External {E} e.

(** [except NameError:] also catches the subclass [UnboundLocalError]. *)
Definition isinstance_NameError {E} (e : exn E) : bool :=
  match e with
  | NameError _ | UnboundLocalError _ => true
  | _ => false
  end.

(** Sequencing of computations that return or raise. *)
Definition try_bind {E A B} (r : exn E + A) (k : A -> exn E + B) : exn E + B :=
  match r with
  | inl e => inl e
  | inr a => k a
  end.

(** What the module sees of a collaborator's answer: its result, or its
    exception on the way up. *)
Definition outcome {E A} (answer : E + A) : exn E + A :=
  match answer with
  | inl e => inl (External e)
  | inr a => inr a
  end.

(** ** The host-engine resolver *)

Section Resolver.
Context {ModuleT E : Type}.

(** The engine contract: a handle may expose a version marker. *)
Variable has_version : ModuleT -> bool.

(** A value held by the names of [_get_dlt_library]: Python [None]
    or an engine module. *)
Definition pyref : Type := option ModuleT.

(** Names bound somewhere in the body of [_get_dlt_library]: its
    parameter (line 40) and the target of the assignment on line 53.
    Python decides at compile time that such names are local to the
    function, in the whole body. *)
Definition co_varnames : list string := ["dlt_library"; "dlt"].

(** Reading a name: a local name reads the frame (and is an
    [UnboundLocalError] while unassigned); any other name reads the
    module's global namespace. *)
Definition load_name (f_locals f_globals : gmap string pyref) (x : string)
  : exn E + pyref :=
  if bool_decide (x ∈ co_varnames) then
    match f_locals !! x with
    | Some v => inr v
    | None => inl (UnboundLocalError x)
    end
  else
    match f_globals !! x with
    | Some v => inr v
    | None => inl (NameError x)
    end.

(** [v.__version__] *)
Definition getattr_version (v : pyref) : exn E + unit :=
  match v with
  | Some m => if has_version m then inr tt else inl (AttributeError "__version__")
  | None => inl (AttributeError "__version__")
  end.

Definition _get_dlt_library (f_globals : gmap string pyref) (dlt_library : pyref)
  : exn E + ModuleT :=
  let f_locals : gmap string pyref := {[ "dlt_library" := dlt_library ]} in
  (* try: dlt.__version__  except NameError: dlt = dlt_library *)
  let after_try :=
    match try_bind (load_name f_locals f_globals "dlt") getattr_version with
    | inr _ => inr f_locals
    | inl e =>
        if isinstance_NameError e then
          try_bind (load_name f_locals f_globals "dlt_library")
                   (fun v => inr (<["dlt" := v]> f_locals))
        else inl e
    end in
  try_bind after_try (fun f_locals =>
  try_bind (load_name f_locals f_globals "dlt") (fun dlt =>
  match dlt with
  | None => inl (ModuleNotFoundError "dlt library was not found")
  | Some m => inr m
  end)).

(** The resolver as the specification words it (section 4.1): a bound
    process-global handle wins, then the injected handle, else the
    module-not-found error. *)
Definition resolver_spec (f_globals : gmap string pyref) (dlt_library : pyref)
  : exn E + ModuleT :=
  match f_globals !! "dlt" with
  | Some (Some g) => inr g
  | _ =>
      match dlt_library with
      | Some m => inr m
      | None => inl (ModuleNotFoundError "dlt library was not found")
      end
  end.
End Resolver.

(** ** Expectation value objects *)

(** Modelled from the spec: the class [DLTExpectation] of
    [integrations.databricks.dlt_expectation] is not part of the sources;
    section 3 gives it as the immutable record of a name and a condition
    string.  The name is whatever the caller passed as
    [dlt_expectation_name], whose default is [None]. *)
Record DLTExpectation : Type := {
  name : option string;
  condition : string
}.

(** ** The decorator *)

Section Decorator.
Context {ModuleT Config DataContext Obj E : Type}.

(** One entry of the log: a call that left the module, with the
    arguments it was made with. *)
Inductive event : Type :=
  | EvTranslate (dlt_expectations : list (option string * string))
                (ge_expectation_type : string)
  | EvFactory (ge_expectation_configuration : Config)
              (dlt_expectation_name : option string)
  | EvCheckpoint (data_context : DataContext) (df : Obj)
                 (expectation_configuration : option Config)
  | EvPrint (text : string)
  | EvExpect (dlt : ModuleT) (expectation_name : option string)
             (expectation_condition : string)
  | EvFunc (args : list Obj) (kwargs : list (string * Obj)).

(** The collaborators the module imports (lines 11 to 25) or is handed
    (the engine); their code lies outside this file, so each is known
    only by what it answers to a call: a result, or an exception of its
    own.  [from_great_expectations_expectation] stands for the method
    called on a fresh [DLTExpectationFactory].  The engine is whatever
    object the caller handed over: [has_version] and [has_expect] tell
    whether it has the attributes [__version__] and [expect], and
    [dlt_expect] is what calling its [expect] attribute does, once that
    attribute is found. *)
Record Externals : Type := {
  has_version : ModuleT -> bool;
  has_expect : ModuleT -> bool;
  translate_dlt_expectation_to_expectation_config :
    list (option string * string) -> string -> E + Config;
  from_great_expectations_expectation :
    Config -> option string -> E + option DLTExpectation;
  run_ge_checkpoint_on_dataframe_from_suite :
    DataContext -> Obj -> option Config -> E + unit;
  dlt_expect : ModuleT -> option string -> string -> E + unit
}.

(** Computations of the wrapper: the log of the calls made so far and
    the value returned or the exception raised. *)
Definition M (A : Type) : Type := list event * (exn E + A).

Definition ret {A} (a : A) : M A := ([], inr a).

Definition raise {A} (e : exn E) : M A := ([], inl e).

Definition bind {A B} (m : M A) (k : A -> M B) : M B :=
  match m with
  | (l, inl e) => (l, inl e)
  | (l, inr a) => let '(l', r) := k a in (l ++ l', r)
  end.

(** A computation without calls. *)
Definition lift {A} (r : exn E + A) : M A := ([], r).

(** A call to a collaborator: logged, its exception propagated. *)
Definition call {A} (ev : event) (answer : E + A) : M A :=
  ([ev], outcome answer).

Definition print (text : string) : M unit := ([EvPrint text], inr tt).
End Decorator.

Arguments event : clear implicits.
Arguments Externals : clear implicits.
Arguments M : clear implicits.

Declare Scope py_scope.
Delimit Scope py_scope with py.
Notation "x <- c ;; k" := (bind c (fun x => k))
  (at level 100, c at next level, right associativity) : py_scope.
Notation "c ;;; k" := (bind c (fun _ => k))
  (at level 100, right associativity) : py_scope.

(** ** Text of the messages *)

Definition dquote : string := String (Ascii.ascii_of_nat 34) EmptyString.

Definition newline : string := String (Ascii.ascii_of_nat 10) EmptyString.

(** [f"{v}"] for a name that may be [None]. *)
Definition format_name (v : option string) : string :=
  match v with
  | Some s => s
  | None => "None"
  end.

Definition msg_not_both : string :=
  "Please provide only one of dlt_expectation_condition OR ge_expectation_configuration, not both.".

Definition msg_at_least_one : string :=
  "Please provide at least one type of expectation configuration".

(** Line 138. *)
Definition msg_would_apply (e : DLTExpectation) : string :=
  "Here we would normally apply: @dlt.expect(" +:+ dquote +:+ format_name (name e)
    +:+ dquote +:+ ", " +:+ dquote +:+ condition e +:+ dquote +:+ ")".

(** Line 141. *)
Definition msg_instead : string :=
  "Here we are instead calling @dlt_mock_library_injected.expect() with appropriate parameters, in the real system the `dlt_mock_library_injected` will be replaced with the main `dlt` library that we pass into the decorator via the `dlt` parameter.".

Definition is_not_None {A} (v : option A) : bool :=
  match v with
  | Some _ => true
  | None => false
  end.

Definition is_None {A} (v : option A) : bool := negb (is_not_None v).

(** ** [expect], [decorator_expect] and [wrapper_expect] *)

Section Expect.
Context {ModuleT Config DataContext Obj E : Type}.

Variable X : Externals ModuleT Config DataContext Obj E.

(** The global namespace of the module at the time of the call. *)
Variable f_globals : gmap string (option ModuleT).

(** The parameters of [expect] (lines 70 to 74), which the two inner
    functions read as free variables.  A caller that leaves
    [dlt_library] out passes the module's [dlt_mock_library], which is
    [None] when its import failed (lines 27 to 34). *)
Variable dlt_expectation_name : option string.
Variable dlt_expectation_condition : option string.
Variable data_context : option DataContext.
Variable ge_expectation_configuration : option Config.
Variable dlt_library : option ModuleT.

Local Open Scope py_scope.

Local Abbreviation Py := (M ModuleT Config DataContext Obj E).

(** Lines 87 to 100. *)
Definition check_exactly_one : Py unit :=
  if is_not_None dlt_expectation_condition
     && is_not_None ge_expectation_configuration
  then raise (UnsupportedExpectationConfiguration msg_not_both)
  else if is_None dlt_expectation_condition
          && is_None ge_expectation_configuration
  then raise (UnsupportedExpectationConfiguration msg_at_least_one)
  else ret tt.

(** Lines 102 to 123.  The result is the binding of the local
    [dlt_expectation] afterwards: [None] while no branch assigned it,
    [Some v] once it holds [v], where the factory may answer Python
    [None]. *)
Definition create_dlt_expectation : Py (option (option DLTExpectation)) :=
  match dlt_expectation_condition with
  | Some c =>
      let dlt_expectation :=
        {| name := dlt_expectation_name; condition := c |} in
      ge_expectation <-
        call (EvTranslate [(name dlt_expectation, condition dlt_expectation)]
                          "expect_column_values_to_not_be_null")
             (translate_dlt_expectation_to_expectation_config X
                [(name dlt_expectation, condition dlt_expectation)]
                "expect_column_values_to_not_be_null") ;;
      ret (Some (Some dlt_expectation))
  | None =>
      match ge_expectation_configuration with
      | Some cfg =>
          dlt_expectation <-
            call (EvFactory cfg dlt_expectation_name)
                 (from_great_expectations_expectation X cfg dlt_expectation_name) ;;
          ret (Some dlt_expectation)
      | None => ret None
      end
  end.

(** [args[0]] *)
Definition getitem0 (args : list Obj) : Py Obj :=
  match args !! 0%nat with
  | Some a => ret a
  | None => raise (IndexError "tuple index out of range")
  end.

(** Lines 127 to 132. *)
Definition run_checkpoint (args : list Obj) : Py unit :=
  match data_context with
  | Some ctx =>
      df <- getitem0 args ;;
      call (EvCheckpoint ctx df ge_expectation_configuration)
           (run_ge_checkpoint_on_dataframe_from_suite X ctx df
              ge_expectation_configuration)
  | None => ret tt
  end.

(** [dlt.expect], the attribute lookup that line 143 starts with. *)
Definition getattr_expect (dlt : ModuleT) : Py unit :=
  if has_expect X dlt then ret tt else raise (AttributeError "expect").

(** Lines 136 to 144.  On line 143 the attribute [expect] of the engine
    is looked up first, and only then called. *)
Definition apply_dlt_expectation (dlt : ModuleT)
    (dlt_expectation : option (option DLTExpectation)) : Py unit :=
  v <- match dlt_expectation with
       | Some v => ret v
       | None => raise (UnboundLocalError "dlt_expectation")
       end ;;
  match v with
  | Some e =>
      print (msg_would_apply e) ;;;
      print msg_instead ;;;
      getattr_expect dlt ;;;
      call (EvExpect dlt (name e) (condition e))
           (dlt_expect X dlt (name e) (condition e)) ;;;
      print newline
  | None => ret tt
  end.

Definition wrapper_expect (func : list Obj -> list (string * Obj) -> E + Obj)
    (args : list Obj) (kwargs : list (string * Obj)) : Py Obj :=
  dlt <- lift (_get_dlt_library (has_version X) f_globals dlt_library) ;;
  check_exactly_one ;;;
  dlt_expectation <- create_dlt_expectation ;;
  run_checkpoint args ;;;
  apply_dlt_expectation dlt dlt_expectation ;;;
  call (EvFunc args kwargs) (func args kwargs).

Definition decorator_expect (func : list Obj -> list (string * Obj) -> E + Obj)
  : list Obj -> list (string * Obj) -> Py Obj :=
  wrapper_expect func.

Definition expect
  : (list Obj -> list (string * Obj) -> E + Obj) ->
    list Obj -> list (string * Obj) -> Py Obj :=
  decorator_expect.
End Expect.

(** ** A recording test double *)

(** The engine, the configuration, the data context and the call
    arguments are all given by their names. *)
Module Stub.
Definition externals : Externals string string string string string := {|
  has_version := fun _ => true;
  has_expect := fun _ => true;
  translate_dlt_expectation_to_expectation_config :=
    fun _ ge_expectation_type => inr ge_expectation_type;
  from_great_expectations_expectation :=
    fun cfg dlt_expectation_name =>
      inr (Some {| name := dlt_expectation_name; condition := cfg |});
  run_ge_checkpoint_on_dataframe_from_suite := fun _ _ _ => inr tt;
  dlt_expect := fun _ _ _ => inr tt
|}.

(** The same double with a checkpoint run that raises. *)
Definition failing_checkpoint
  : Externals string string string string string := {|
  has_version := has_version externals;
  has_expect := has_expect externals;
  translate_dlt_expectation_to_expectation_config :=
    translate_dlt_expectation_to_expectation_config externals;
  from_great_expectations_expectation :=
    from_great_expectations_expectation externals;
  run_ge_checkpoint_on_dataframe_from_suite :=
    fun _ _ _ => inl "checkpoint failed";
  dlt_expect := dlt_expect externals
|}.

(** The same double with a factory that answers [None]. *)
Definition factory_without_expectation
  : Externals string string string string string := {|
  has_version := has_version externals;
  has_expect := has_expect externals;
  translate_dlt_expectation_to_expectation_config :=
    translate_dlt_expectation_to_expectation_config externals;
  from_great_expectations_expectation := fun _ _ => inr None;
  run_ge_checkpoint_on_dataframe_from_suite :=
    run_ge_checkpoint_on_dataframe_from_suite externals;
  dlt_expect := dlt_expect externals
|}.

(** The same double for an engine object without the attribute
    [expect]. *)
Definition engine_without_expect
  : Externals string string string string string := {|
  has_version := has_version externals;
  has_expect := fun _ => false;
  translate_dlt_expectation_to_expectation_config :=
    translate_dlt_expectation_to_expectation_config externals;
  from_great_expectations_expectation :=
    from_great_expectations_expectation externals;
  run_ge_checkpoint_on_dataframe_from_suite :=
    run_ge_checkpoint_on_dataframe_from_suite externals;
  dlt_expect := dlt_expect externals
|}.

(** The decorated function of the example of section 8. *)
Definition addColumn (args : list string) (kwargs : list (string * string))
  : string + string :=
  inr "df_with_column".
End Stub.


(** ** Vocabulary of the statements *)

(** A collaborator answered with a result, not with an exception. *)
Definition returns {E A} (answer : E + A) : bool :=
  match answer with
  | inr _ => true
  | inl _ => false
  end.

(** [needle] occurs in [text]. *)
Definition mentions (needle text : string) : bool :=
  is_not_None (String.index 0 needle text).

Section Log.
Context {ModuleT Config DataContext Obj : Type}.

Local Abbreviation event := (event ModuleT Config DataContext Obj).

Definition is_translate (ev : event) : bool :=
  match ev with EvTranslate _ _ => true | _ => false end.

Definition is_factory (ev : event) : bool :=
  match ev with EvFactory _ _ => true | _ => false end.

Definition is_checkpoint (ev : event) : bool :=
  match ev with EvCheckpoint _ _ _ => true | _ => false end.

Definition is_expect (ev : event) : bool :=
  match ev with EvExpect _ _ _ => true | _ => false end.

Definition is_func (ev : event) : bool :=
  match ev with EvFunc _ _ => true | _ => false end.

(** The calls of one kind, in the order they were made. *)
Definition calls (kind : event -> bool) (log : list event) : list event :=
  List.filter kind log.
End Log.

Section Conditions.
Context {ModuleT Config DataContext Obj E : Type}.

Variable X : Externals ModuleT Config DataContext Obj E.
Variable dlt_expectation_name : option string.
Variable dlt_expectation_condition : option string.
Variable data_context : option DataContext.
Variable ge_expectation_configuration : option Config.

(** Exactly one of the condition and the configuration is given. *)
Definition exactly_one : bool :=
  xorb (is_not_None dlt_expectation_condition)
       (is_not_None ge_expectation_configuration).

(** The translation of lines 102 to 123 returns, and leaves [e] in
    [dlt_expectation]. *)
Definition translation_returns (e : option DLTExpectation) : Prop :=
  match dlt_expectation_condition with
  | Some c =>
      returns (translate_dlt_expectation_to_expectation_config X
                 [(dlt_expectation_name, c)]
                 "expect_column_values_to_not_be_null") = true
      /\ e = Some {| name := dlt_expectation_name; condition := c |}
  | None =>
      match ge_expectation_configuration with
      | Some cfg =>
          from_great_expectations_expectation X cfg dlt_expectation_name = inr e
      | None => False
      end
  end.

(** Nothing stops the call at lines 127 to 132: there is no data
    context, or there is a first positional argument and the
    checkpoint run on it returns. *)
Definition checkpoint_returns (args : list Obj) : bool :=
  match data_context with
  | None => true
  | Some ctx =>
      match args !! 0%nat with
      | Some df =>
          returns (run_ge_checkpoint_on_dataframe_from_suite X ctx df
                     ge_expectation_configuration)
      | None => false
      end
  end.

(** The registration of lines 136 to 144 returns: there is nothing to
    register, or the engine has the attribute [expect] and the call of
    it returns. *)
Definition registration_returns (dlt : ModuleT) (e : option DLTExpectation)
  : bool :=
  match e with
  | Some e =>
      has_expect X dlt && returns (dlt_expect X dlt (name e) (condition e))
  | None => true
  end.

(** Every step before line 146 returns. *)
Definition reaches_func (f_globals : gmap string (option ModuleT))
    (dlt_library : option ModuleT) (args : list Obj) : Prop :=
  exists dlt e,
    _get_dlt_library (E := E) (has_version X) f_globals dlt_library = inr dlt
    /\ exactly_one = true
    /\ translation_returns e
    /\ checkpoint_returns args = true
    /\ registration_returns dlt e = true.
End Conditions.

(** ** Loading the module, and the default of [dlt_library] *)

(** Line 32. *)
Definition msg_could_not_import : string :=
  "could not import dlt_mock_library - please install or run in the DLT environment to enable this package. TODO: make this a real error message".

Section ModuleInit.
Context {ModuleT Config DataContext Obj E : Type}.

Variable X : Externals ModuleT Config DataContext Obj E.

Local Open Scope py_scope.

Local Abbreviation Py := (M ModuleT Config DataContext Obj E).

(** Lines 27 to 34.  [answer] is what the import of
    [integrations.databricks.dlt_mock_library] gives: the module, or an
    exception.  The bare [except:] catches whatever it raises, prints
    the message and binds [dlt_mock_library] to [None]. *)
Definition import_dlt_mock_library (answer : E + ModuleT)
  : Py (option ModuleT) :=
  match answer with
  | inr m => ret (Some m)
  | inl _ => print msg_could_not_import ;;; ret None
  end.

(** Line 74.  The default of [dlt_library] is the value that
    [dlt_mock_library] had when [expect] was defined; [passed] is [None]
    when the caller leaves the keyword out, and [Some v] when the caller
    passes [v], which may be Python [None]. *)
Definition bind_dlt_library (dlt_mock_library : option ModuleT)
    (passed : option (option ModuleT)) : option ModuleT :=
  match passed with
  | Some v => v
  | None => dlt_mock_library
  end.

(** The module is loaded, [expect] is applied with the keywords of the
    caller, and the decorated function is called once. *)
Definition import_then_call (answer : E + ModuleT)
    (f_globals : gmap string (option ModuleT))
    (dlt_expectation_name dlt_expectation_condition : option string)
    (data_context : option DataContext)
    (ge_expectation_configuration : option Config)
    (passed : option (option ModuleT))
    (func : list Obj -> list (string * Obj) -> E + Obj)
    (args : list Obj) (kwargs : list (string * Obj)) : Py Obj :=
  dlt_mock_library <- import_dlt_mock_library answer ;;
  expect X f_globals dlt_expectation_name dlt_expectation_condition
    data_context ge_expectation_configuration
    (bind_dlt_library dlt_mock_library passed) func args kwargs.

End ModuleInit.

(** ** More vocabulary *)

Section Variants.
Context {ModuleT Config DataContext Obj E : Type}.

Variable X : Externals ModuleT Config DataContext Obj E.

(** The collaborators of [X] with another translator. *)
Definition with_translator
    (translate : list (option string * string) -> string -> E + Config)
  : Externals ModuleT Config DataContext Obj E := {|
  has_version := has_version X;
  has_expect := has_expect X;
  translate_dlt_expectation_to_expectation_config := translate;
  from_great_expectations_expectation := from_great_expectations_expectation X;
  run_ge_checkpoint_on_dataframe_from_suite :=
    run_ge_checkpoint_on_dataframe_from_suite X;
  dlt_expect := dlt_expect X
|}.

Definition is_print (ev : event ModuleT Config DataContext Obj) : bool :=
  match ev with EvPrint _ => true | _ => false end.

(** The exceptions of a name read while unbound. *)
Definition is_unbound_name (e : exn E) : bool :=
  match e with
  | NameError _ | UnboundLocalError _ => true
  | _ => false
  end.
End Variants.

(** * Properties *)

(** ** The resolver *)

Section ResolverFacts.
Context {ModuleT E : Type}.

Variable has_version : ModuleT -> bool.

Implicit Types (f_globals : gmap string (option ModuleT))
               (dlt_library : option ModuleT).

(** [dlt] is a local of the resolver, so the read inside [try] never
    reaches the global namespace. *)
Lemma load_name_dlt_unbound f_globals dlt_library :
  load_name (E := E) {[ "dlt_library" := dlt_library ]} f_globals "dlt"
  = inl (UnboundLocalError "dlt").
Proof. reflexivity. Qed.

(** The resolver answers with the injected handle, whatever the
    global namespace holds. *)
Lemma _get_dlt_library_injected f_globals dlt_library :
  _get_dlt_library (E := E) has_version f_globals dlt_library
  = match dlt_library with
    | Some m => inr m
    | None => inl (ModuleNotFoundError "dlt library was not found")
    end.
Proof.
  unfold _get_dlt_library. rewrite load_name_dlt_unbound. simpl.
  destruct dlt_library; reflexivity.
Qed.

Lemma _get_dlt_library_inr f_globals dlt_library dlt :
  _get_dlt_library (E := E) has_version f_globals dlt_library = inr dlt
  <-> dlt_library = Some dlt.
Proof.
  rewrite _get_dlt_library_injected.
  destruct dlt_library; split; congruence.
Qed.

Lemma _get_dlt_library_globals_irrelevant f_globals f_globals' dlt_library :
  _get_dlt_library (E := E) has_version f_globals dlt_library
  = _get_dlt_library has_version f_globals' dlt_library.
Proof. rewrite !_get_dlt_library_injected. reflexivity. Qed.
End ResolverFacts.

(** ** The wrapper *)

Ltac unfold_wrapper :=
  unfold wrapper_expect, check_exactly_one, create_dlt_expectation,
    run_checkpoint, getitem0, apply_dlt_expectation, getattr_expect, print,
    call, lift, raise, ret, bind.

(** The log at hand ends with the call of the decorated function. *)
Ltac ends_with_func :=
  match goal with
  | |- exists before, (?log, _) = _ /\ _ =>
      exists (removelast log); split; reflexivity
  end.

Section WrapperFacts.
Context {ModuleT Config DataContext Obj E : Type}.

Variable X : Externals ModuleT Config DataContext Obj E.

Implicit Types (f_globals : gmap string (option ModuleT))
               (dlt_expectation_name dlt_expectation_condition : option string)
               (data_context : option DataContext)
               (ge_expectation_configuration : option Config)
               (dlt_library : option ModuleT)
               (func : list Obj -> list (string * Obj) -> E + Obj)
               (args : list Obj) (kwargs : list (string * Obj)).

(** [expect(...)(func)] is the wrapper around [func]. *)
Lemma expect_is_wrapper f_globals dlt_expectation_name
    dlt_expectation_condition data_context ge_expectation_configuration
    dlt_library func :
  expect X f_globals dlt_expectation_name dlt_expectation_condition
    data_context ge_expectation_configuration dlt_library func
  = wrapper_expect X f_globals dlt_expectation_name
      dlt_expectation_condition data_context ge_expectation_configuration
      dlt_library func.
Proof. reflexivity. Qed.

(** A failed resolution is the whole call. *)
Lemma wrapper_expect_unresolved f_globals dlt_expectation_name
    dlt_expectation_condition data_context ge_expectation_configuration
    dlt_library func args kwargs e :
  _get_dlt_library (E := E) (has_version X) f_globals dlt_library = inl e ->
  wrapper_expect X f_globals dlt_expectation_name dlt_expectation_condition
    data_context ge_expectation_configuration dlt_library func args kwargs
  = ([], inl e).
Proof. intros Hdlt. unfold_wrapper. rewrite Hdlt. reflexivity. Qed.

(** When every step before line 146 returns, the log ends with the one
    call of the decorated function, whose outcome is the wrapper's. *)
Lemma wrapper_expect_returns f_globals dlt_expectation_name
    dlt_expectation_condition data_context ge_expectation_configuration
    dlt_library func args kwargs dlt e :
  _get_dlt_library (E := E) (has_version X) f_globals dlt_library = inr dlt ->
  exactly_one dlt_expectation_condition ge_expectation_configuration = true ->
  translation_returns X dlt_expectation_name dlt_expectation_condition
    ge_expectation_configuration e ->
  checkpoint_returns X data_context ge_expectation_configuration args = true ->
  registration_returns X dlt e = true ->
  exists before,
    wrapper_expect X f_globals dlt_expectation_name
      dlt_expectation_condition data_context ge_expectation_configuration
      dlt_library func args kwargs
    = (before ++ [EvFunc args kwargs], outcome (func args kwargs))
    /\ calls is_func before = [].
Proof.
  intros Hdlt Hone Htr Hchk Hreg. unfold_wrapper. rewrite Hdlt.
  unfold exactly_one, translation_returns, checkpoint_returns,
    registration_returns in *.
  destruct dlt_expectation_condition as [c|],
           ge_expectation_configuration as [cfg|];
    try discriminate; try contradiction; simpl in *.
  - destruct Htr as [Htr ->].
    destruct (translate_dlt_expectation_to_expectation_config X _ _);
      try discriminate; simpl in *.
    destruct data_context as [ctx|]; simpl.
    + destruct args as [|df args']; try discriminate; simpl in *.
      destruct (run_ge_checkpoint_on_dataframe_from_suite X ctx df None);
        try discriminate; simpl.
      destruct (has_expect X dlt); simpl in *; try discriminate.
      destruct (dlt_expect X dlt dlt_expectation_name c);
        try discriminate; simpl.
      ends_with_func.
    + destruct (has_expect X dlt); simpl in *; try discriminate.
      destruct (dlt_expect X dlt dlt_expectation_name c);
        try discriminate; simpl.
      ends_with_func.
  - rewrite Htr. simpl.
    destruct data_context as [ctx|]; simpl.
    + destruct args as [|df args']; try discriminate; simpl in *.
      destruct (run_ge_checkpoint_on_dataframe_from_suite X ctx df (Some cfg));
        try discriminate; simpl.
      destruct e as [e|]; simpl in *.
      * destruct (has_expect X dlt); simpl in *; try discriminate.
        destruct (dlt_expect X dlt (name e) (condition e));
          try discriminate; simpl.
        ends_with_func.
      * ends_with_func.
    + destruct e as [e|]; simpl in *.
      * destruct (has_expect X dlt); simpl in *; try discriminate.
        destruct (dlt_expect X dlt (name e) (condition e));
          try discriminate; simpl.
        ends_with_func.
      * ends_with_func.
Qed.

(** When some step before line 146 does not return, the call ends
    there with an exception and the decorated function is not called. *)
Lemma wrapper_expect_aborts f_globals dlt_expectation_name
    dlt_expectation_condition data_context ge_expectation_configuration
    dlt_library func args kwargs :
  ~ reaches_func X dlt_expectation_name dlt_expectation_condition
      data_context ge_expectation_configuration f_globals dlt_library args ->
  calls is_func
    (wrapper_expect X f_globals dlt_expectation_name
       dlt_expectation_condition data_context ge_expectation_configuration
       dlt_library func args kwargs).1 = []
  /\ exists e,
       (wrapper_expect X f_globals dlt_expectation_name
          dlt_expectation_condition data_context
          ge_expectation_configuration dlt_library func args kwargs).2
       = inl e.
Proof.
  intros Hn.
  assert (Hreach : forall dlt e,
    dlt_library = Some dlt ->
    exactly_one dlt_expectation_condition ge_expectation_configuration = true ->
    translation_returns X dlt_expectation_name dlt_expectation_condition
      ge_expectation_configuration e ->
    checkpoint_returns X data_context ge_expectation_configuration args = true ->
    registration_returns X dlt e = true -> False).
  { intros dlt e Hdlt ? ? ? ?. apply Hn. exists dlt, e.
    rewrite _get_dlt_library_injected, Hdlt. auto. }
  clear Hn. unfold_wrapper. rewrite _get_dlt_library_injected.
  unfold exactly_one, translation_returns, checkpoint_returns,
    registration_returns in Hreach.
  destruct dlt_library as [dlt|]; simpl; [|eauto].
  specialize (Hreach dlt).
  destruct dlt_expectation_condition as [c|],
           ge_expectation_configuration as [cfg|]; simpl in *; eauto.
  - destruct (translate_dlt_expectation_to_expectation_config X _ _);
      simpl in *; eauto.
    specialize (Hreach _ eq_refl eq_refl (conj eq_refl eq_refl)).
    destruct data_context as [ctx|]; simpl in *.
    + destruct args as [|df args']; simpl in *; eauto.
      destruct (run_ge_checkpoint_on_dataframe_from_suite X ctx df None);
        simpl in *; eauto.
      destruct (has_expect X dlt); simpl in *; eauto.
      destruct (dlt_expect X dlt dlt_expectation_name c); simpl in *; eauto.
      exfalso; auto.
    + destruct (has_expect X dlt); simpl in *; eauto.
      destruct (dlt_expect X dlt dlt_expectation_name c); simpl in *; eauto.
      exfalso; auto.
  - destruct (from_great_expectations_expectation X cfg dlt_expectation_name)
      as [|e]; simpl in *; eauto.
    specialize (Hreach e eq_refl eq_refl eq_refl).
    destruct data_context as [ctx|]; simpl in *.
    + destruct args as [|df args']; simpl in *; eauto.
      destruct (run_ge_checkpoint_on_dataframe_from_suite X ctx df (Some cfg));
        simpl in *; eauto.
      destruct e as [e|]; simpl in *; [|exfalso; auto].
      destruct (has_expect X dlt); simpl in *; eauto.
      destruct (dlt_expect X dlt (name e) (condition e)); simpl in *; eauto.
      exfalso; auto.
    + destruct e as [e|]; simpl in *; [|exfalso; auto].
      destruct (has_expect X dlt); simpl in *; eauto.
      destruct (dlt_expect X dlt (name e) (condition e)); simpl in *; eauto.
      exfalso; auto.
Qed.
End WrapperFacts.

(** ** The claims *)

Section Claims.
Context {ModuleT Config DataContext Obj E : Type}.

Variable X : Externals ModuleT Config DataContext Obj E.
Variable f_globals : gmap string (option ModuleT).
Variable dlt_expectation_name : option string.
Variable dlt_expectation_condition : option string.
Variable data_context : option DataContext.
Variable ge_expectation_configuration : option Config.
Variable dlt_library : option ModuleT.
Variable func : list Obj -> list (string * Obj) -> E + Obj.
Variable args : list Obj.
Variable kwargs : list (string * Obj).

(** C2, amended.  When the resolver returns an engine: a call whose
    decoration gave both the condition and the configuration raises
    UnsupportedExpectationConfiguration with the message that names
    both options, a call whose decoration gave neither raises it with
    the message that asks for at least one, and in both cases nothing
    was called before, the decorated function included. *)
Theorem both_or_neither_rejected (dlt : ModuleT) :
  _get_dlt_library (E := E) (has_version X) f_globals dlt_library = inr dlt ->
  (is_not_None dlt_expectation_condition = true ->
   is_not_None ge_expectation_configuration = true ->
   wrapper_expect X f_globals dlt_expectation_name dlt_expectation_condition
     data_context ge_expectation_configuration dlt_library func args kwargs
   = ([], inl (UnsupportedExpectationConfiguration msg_not_both)))
  /\ (dlt_expectation_condition = None ->
      ge_expectation_configuration = None ->
      wrapper_expect X f_globals dlt_expectation_name
        dlt_expectation_condition data_context ge_expectation_configuration
        dlt_library func args kwargs
      = ([], inl (UnsupportedExpectationConfiguration msg_at_least_one)))
  /\ mentions "dlt_expectation_condition" msg_not_both = true
  /\ mentions "ge_expectation_configuration" msg_not_both = true
  /\ mentions "at least one" msg_at_least_one = true.
Proof.
  intros Hdlt. split; [|split; [|split; [|split]]].
  - intros Hc Hg. unfold_wrapper. rewrite Hdlt, Hc, Hg. reflexivity.
  - intros -> ->. unfold_wrapper. rewrite Hdlt. reflexivity.
  - reflexivity.
  - reflexivity.
  - reflexivity.
Qed.

(** C3, amended.  For a decoration that gives exactly one of the
    condition and the configuration, when the resolver returns an
    engine and the translation, the checkpoint step (which needs a
    first positional argument once a data context is given) and the
    registration all return: the decorated function is called exactly
    once, last, with the positional and keyword arguments of the call,
    and what it returns or raises is what the wrapper returns or
    raises. *)
Theorem func_called_once_result_unchanged (dlt : ModuleT)
    (e : option DLTExpectation) :
  _get_dlt_library (E := E) (has_version X) f_globals dlt_library = inr dlt ->
  exactly_one dlt_expectation_condition ge_expectation_configuration = true ->
  translation_returns X dlt_expectation_name dlt_expectation_condition
    ge_expectation_configuration e ->
  checkpoint_returns X data_context ge_expectation_configuration args = true ->
  registration_returns X dlt e = true ->
  exists before,
    wrapper_expect X f_globals dlt_expectation_name
      dlt_expectation_condition data_context ge_expectation_configuration
      dlt_library func args kwargs
    = (before ++ [EvFunc args kwargs], outcome (func args kwargs))
    /\ calls is_func (before ++ [EvFunc args kwargs]) = [EvFunc args kwargs].
Proof.
  intros Hdlt Hone Htr Hchk Hreg.
  destruct (wrapper_expect_returns X f_globals dlt_expectation_name
              dlt_expectation_condition data_context
              ge_expectation_configuration dlt_library func args kwargs
              dlt e Hdlt Hone Htr Hchk Hreg) as (before & Hrun & Hnone).
  exists before. split; [exact Hrun|].
  unfold calls in *. rewrite List.filter_app, Hnone. reflexivity.
Qed.

(** C4.  When no engine is bound globally and none was injected, the
    call raises the module-not-found error whatever the condition and
    the configuration are, and its log is empty: no translation, no
    checkpoint, no registration took place, and the both-or-neither
    check did not decide the outcome. *)
Theorem no_engine_aborts_first :
  f_globals !! "dlt" = None ->
  dlt_library = None ->
  wrapper_expect X f_globals dlt_expectation_name dlt_expectation_condition
    data_context ge_expectation_configuration dlt_library func args kwargs
  = ([], inl (ModuleNotFoundError "dlt library was not found")).
Proof.
  intros _ ->. apply wrapper_expect_unresolved.
  rewrite _get_dlt_library_injected. reflexivity.
Qed.

(** C5, amended.  For a decoration with a data context that gives
    exactly one of the condition and the configuration, when the
    resolver returns an engine, the translation returns and the call
    has a first positional argument: the wrapper runs the checkpoint
    once, on that first argument, with the configuration option of the
    decoration.  On the condition path that option is [None]: the
    checkpoint comes right after the translation and is given [None],
    not the configuration the translator answered. *)
Theorem checkpoint_gets_decoration_configuration (dlt : ModuleT)
    (e : option DLTExpectation) (ctx : DataContext) (df : Obj) :
  data_context = Some ctx ->
  _get_dlt_library (E := E) (has_version X) f_globals dlt_library = inr dlt ->
  exactly_one dlt_expectation_condition ge_expectation_configuration = true ->
  translation_returns X dlt_expectation_name dlt_expectation_condition
    ge_expectation_configuration e ->
  args !! 0%nat = Some df ->
  calls is_checkpoint
    (wrapper_expect X f_globals dlt_expectation_name
       dlt_expectation_condition data_context ge_expectation_configuration
       dlt_library func args kwargs).1
  = [EvCheckpoint ctx df ge_expectation_configuration]
  /\ forall c,
       dlt_expectation_condition = Some c ->
       ge_expectation_configuration = None
       /\ exists rest,
            (wrapper_expect X f_globals dlt_expectation_name
               dlt_expectation_condition data_context
               ge_expectation_configuration dlt_library func args kwargs).1
            = EvTranslate [(dlt_expectation_name, c)]
                "expect_column_values_to_not_be_null"
              :: EvCheckpoint ctx df None :: rest.
Proof.
  intros -> Hdlt Hone Htr Hdf. unfold_wrapper. rewrite Hdlt, Hdf.
  unfold exactly_one, translation_returns in *.
  destruct dlt_expectation_condition as [c|],
           ge_expectation_configuration as [cfg|];
    try discriminate; try contradiction; simpl in *.
  - destruct Htr as [Htr ->].
    destruct (translate_dlt_expectation_to_expectation_config X _ _);
      try discriminate; simpl.
    destruct (run_ge_checkpoint_on_dataframe_from_suite X ctx df None);
      simpl.
    + split; [reflexivity|]. intros ? [= <-]. eauto.
    + destruct (has_expect X dlt); simpl;
        [destruct (dlt_expect X dlt dlt_expectation_name c); simpl|];
        (split; [reflexivity|]; intros ? [= <-]; eauto).
  - rewrite Htr. simpl.
    destruct (run_ge_checkpoint_on_dataframe_from_suite X ctx df (Some cfg));
      simpl.
    + split; [reflexivity|]. intros ? [=].
    + destruct e as [e'|]; simpl.
      * destruct (has_expect X dlt); simpl;
          [destruct (dlt_expect X dlt (name e') (condition e')); simpl|];
          (split; [reflexivity|]; intros ? [=]).
      * split; [reflexivity|]. intros ? [=].
Qed.

(** C6, amended.  The decorated function runs exactly when every step
    before it returns: the resolver returns an engine, exactly one of
    the condition and the configuration is given, the translation
    returns, the checkpoint step returns (with a data context it needs
    a first positional argument) and the registration returns.  Then it
    is called once, last, with the arguments of the call, and its
    outcome is the wrapper's.  Otherwise the call ends with an
    exception and the decorated function is not called. *)
Theorem func_runs_iff_steps_return :
  (reaches_func X dlt_expectation_name dlt_expectation_condition
     data_context ge_expectation_configuration f_globals dlt_library args ->
   exists before,
     wrapper_expect X f_globals dlt_expectation_name
       dlt_expectation_condition data_context ge_expectation_configuration
       dlt_library func args kwargs
     = (before ++ [EvFunc args kwargs], outcome (func args kwargs))
     /\ calls is_func before = [])
  /\ (~ reaches_func X dlt_expectation_name dlt_expectation_condition
        data_context ge_expectation_configuration f_globals dlt_library args ->
      calls is_func
        (wrapper_expect X f_globals dlt_expectation_name
           dlt_expectation_condition data_context
           ge_expectation_configuration dlt_library func args kwargs).1 = []
      /\ exists err,
           (wrapper_expect X f_globals dlt_expectation_name
              dlt_expectation_condition data_context
              ge_expectation_configuration dlt_library func args kwargs).2
           = inl err).
Proof.
  split.
  - intros (dlt & e & Hdlt & Hone & Htr & Hchk & Hreg).
    eapply wrapper_expect_returns; eassumption.
  - apply wrapper_expect_aborts.
Qed.

(** C7, amended.  For a decoration that gives the condition and not
    the configuration, when the resolver returns an engine: the first
    thing the wrapper does is to call the translator with the one pair
    made of the name and the condition of the expectation built from
    the decoration's name and condition, and with
    expect_column_values_to_not_be_null as the target type; it is the
    only call of the translator, the factory is not called, and when
    the translator returns the expectation of the call is that
    expectation. *)
Theorem condition_path_translates_single_pair (dlt : ModuleT) (c : string) :
  _get_dlt_library (E := E) (has_version X) f_globals dlt_library = inr dlt ->
  dlt_expectation_condition = Some c ->
  ge_expectation_configuration = None ->
  let dlt_expectation := {| name := dlt_expectation_name; condition := c |} in
  let translation :=
    EvTranslate [(name dlt_expectation, condition dlt_expectation)]
      "expect_column_values_to_not_be_null" in
  let log :=
    (wrapper_expect X f_globals dlt_expectation_name
       dlt_expectation_condition data_context ge_expectation_configuration
       dlt_library func args kwargs).1 in
  (exists rest, log = translation :: rest)
  /\ calls is_translate log = [translation]
  /\ calls is_factory log = []
  /\ (returns (translate_dlt_expectation_to_expectation_config X
                 [(dlt_expectation_name, c)]
                 "expect_column_values_to_not_be_null") = true ->
      (create_dlt_expectation X dlt_expectation_name
         dlt_expectation_condition ge_expectation_configuration).2
      = inr (Some (Some dlt_expectation))).
Proof.
  intros Hdlt -> ->. simpl. unfold_wrapper. rewrite Hdlt. simpl.
  destruct (translate_dlt_expectation_to_expectation_config X _ _); simpl.
  { repeat split; eauto; discriminate. }
  destruct data_context as [ctx|]; simpl.
  - destruct args as [|df args']; simpl.
    { repeat split; eauto. }
    destruct (run_ge_checkpoint_on_dataframe_from_suite X ctx df None); simpl.
    { repeat split; eauto. }
    destruct (has_expect X dlt); simpl;
      [destruct (dlt_expect X dlt dlt_expectation_name c); simpl|];
      repeat split; eauto.
  - destruct (has_expect X dlt); simpl;
      [destruct (dlt_expect X dlt dlt_expectation_name c); simpl|];
      repeat split; eauto.
Qed.

(** C8, amended.  For a decoration that gives the configuration and
    not the condition, when the resolver returns an engine: the first
    thing the wrapper does is to call the factory with the
    configuration and the decoration's name; it is the only call of the
    factory, and the translator of the condition path is not called.
    When moreover the factory answers an expectation, the checkpoint
    step returns and the resolved engine has the attribute [expect],
    the wrapper afterwards calls the registration of that engine
    exactly once, with the name and the condition of the expectation
    the factory answered. *)
Theorem configuration_path_registers (dlt : ModuleT) (cfg : Config) :
  _get_dlt_library (E := E) (has_version X) f_globals dlt_library = inr dlt ->
  dlt_expectation_condition = None ->
  ge_expectation_configuration = Some cfg ->
  exists rest,
    (wrapper_expect X f_globals dlt_expectation_name
       dlt_expectation_condition data_context ge_expectation_configuration
       dlt_library func args kwargs).1
    = EvFactory cfg dlt_expectation_name :: rest
    /\ calls is_factory rest = []
    /\ calls is_translate rest = []
    /\ forall e : DLTExpectation,
         from_great_expectations_expectation X cfg dlt_expectation_name
         = inr (Some e) ->
         checkpoint_returns X data_context ge_expectation_configuration args
         = true ->
         has_expect X dlt = true ->
         calls is_expect rest = [EvExpect dlt (name e) (condition e)].
Proof.
  intros Hdlt -> ->. unfold_wrapper. rewrite Hdlt.
  unfold checkpoint_returns. simpl.
  destruct (from_great_expectations_expectation X cfg dlt_expectation_name)
    as [err|[e|]]; simpl.
  - eexists. repeat split. intros e' [=].
  - destruct data_context as [ctx|]; simpl.
    + destruct args as [|df args']; simpl.
      { eexists. repeat split. intros e' _ [=]. }
      destruct (run_ge_checkpoint_on_dataframe_from_suite X ctx df (Some cfg));
        simpl.
      { eexists. repeat split. intros e' _ [=]. }
      destruct (has_expect X dlt); simpl.
      * destruct (dlt_expect X dlt (name e) (condition e)); simpl;
          eexists; repeat split; intros e' [= <-] _ _; reflexivity.
      * eexists. repeat split. intros e' _ _ [=].
    + destruct (has_expect X dlt); simpl.
      * destruct (dlt_expect X dlt (name e) (condition e)); simpl;
          eexists; repeat split; intros e' [= <-] _ _; reflexivity.
      * eexists. repeat split. intros e' _ _ [=].
  - destruct data_context as [ctx|]; simpl.
    + destruct args as [|df args']; simpl.
      { eexists. repeat split. intros e' [=]. }
      destruct (run_ge_checkpoint_on_dataframe_from_suite X ctx df (Some cfg));
        simpl; eexists; repeat split; intros e' [=].
    + eexists. repeat split. intros e' [=].
Qed.

(** C9, amended.  For a decoration with a data context that gives
    exactly one of the condition and the configuration, when the
    resolver returns an engine and the translation returns: a call
    without positional arguments raises IndexError at the read of the
    first positional argument; the checkpoint, the registration and
    the decorated function are not called. *)
Theorem zero_arguments_index_error (dlt : ModuleT)
    (e : option DLTExpectation) (ctx : DataContext) :
  data_context = Some ctx ->
  args = [] ->
  _get_dlt_library (E := E) (has_version X) f_globals dlt_library = inr dlt ->
  exactly_one dlt_expectation_condition ge_expectation_configuration = true ->
  translation_returns X dlt_expectation_name dlt_expectation_condition
    ge_expectation_configuration e ->
  let run :=
    wrapper_expect X f_globals dlt_expectation_name
      dlt_expectation_condition data_context ge_expectation_configuration
      dlt_library func args kwargs in
  run.2 = inl (IndexError "tuple index out of range")
  /\ calls is_func run.1 = []
  /\ calls is_checkpoint run.1 = []
  /\ calls is_expect run.1 = [].
Proof.
  intros -> -> Hdlt Hone Htr. simpl. unfold_wrapper. rewrite Hdlt.
  unfold exactly_one, translation_returns in *.
  destruct dlt_expectation_condition as [c|],
           ge_expectation_configuration as [cfg|];
    try discriminate; try contradiction; simpl in *.
  - destruct Htr as [Htr _].
    destruct (translate_dlt_expectation_to_expectation_config X _ _);
      try discriminate; simpl.
    repeat split.
  - rewrite Htr. simpl. repeat split.
Qed.

(** C10, amended.  For a decoration on the condition path whose name
    is left unset, when the resolver returns an engine, the translation
    and the checkpoint step return and the resolved engine has the
    attribute [expect]: the expectation of the call has the name
    [None], the registration of the engine is called exactly once, with
    [None] as the name and the condition of the decoration, and the
    call ends with the outcome of the decorated function or with the
    exception of the registration, never with an exception this module
    raises. *)
Theorem null_name_is_registered (dlt : ModuleT) (c : string) :
  dlt_expectation_name = None ->
  _get_dlt_library (E := E) (has_version X) f_globals dlt_library = inr dlt ->
  dlt_expectation_condition = Some c ->
  ge_expectation_configuration = None ->
  returns (translate_dlt_expectation_to_expectation_config X [(None, c)]
             "expect_column_values_to_not_be_null") = true ->
  checkpoint_returns X data_context ge_expectation_configuration args = true ->
  has_expect X dlt = true ->
  let run :=
    wrapper_expect X f_globals dlt_expectation_name
      dlt_expectation_condition data_context ge_expectation_configuration
      dlt_library func args kwargs in
  (create_dlt_expectation X dlt_expectation_name dlt_expectation_condition
     ge_expectation_configuration).2
  = inr (Some (Some {| name := None; condition := c |}))
  /\ calls is_expect run.1 = [EvExpect dlt None c]
  /\ (run.2 = outcome (func args kwargs)
      \/ exists err, dlt_expect X dlt None c = inl err
                     /\ run.2 = inl (External err)).
Proof.
  intros -> Hdlt -> -> Htr Hchk Hattr. simpl. unfold_wrapper.
  rewrite Hdlt, Hattr.
  unfold checkpoint_returns in Hchk. simpl.
  destruct (translate_dlt_expectation_to_expectation_config X _ _);
    try discriminate; simpl.
  split; [reflexivity|].
  destruct data_context as [ctx|]; simpl.
  - destruct args as [|df args']; try discriminate; simpl in *.
    destruct (run_ge_checkpoint_on_dataframe_from_suite X ctx df None);
      try discriminate; simpl.
    destruct (dlt_expect X dlt None c); simpl; split; eauto.
  - destruct (dlt_expect X dlt None c); simpl; split; eauto.
Qed.
End Claims.

(** ** Runs against the test double *)

(** The example of section 8: [addColumn] decorated with the condition
    [col1 > 0] under the name [positive_col1], with an injected stub.
    The call registers the two values with the stub and returns what
    [addColumn] returns. *)
Example addColumn_positive_col1 :
  wrapper_expect Stub.externals ∅ (Some "positive_col1") (Some "col1 > 0")
    None None (Some "stub") Stub.addColumn ["df"] []
  = ([EvTranslate [(Some "positive_col1", "col1 > 0")]
        "expect_column_values_to_not_be_null";
      EvPrint
        ("Here we would normally apply: @dlt.expect(" +:+ dquote
         +:+ "positive_col1" +:+ dquote +:+ ", " +:+ dquote +:+ "col1 > 0"
         +:+ dquote +:+ ")");
      EvPrint msg_instead;
      EvExpect "stub" (Some "positive_col1") "col1 > 0";
      EvPrint newline;
      EvFunc ["df"] []],
     inr "df_with_column").
Proof. reflexivity. Qed.

(** C1, a defect of the code.  With an engine bound to the global name
    [dlt], the resolver of section 4.1 answers that engine, both when
    another handle is injected and when none is.  [_get_dlt_library]
    answers the injected handle in the first case and raises the
    module-not-found error in the second: the assignment on line 53
    makes [dlt] a local of the function, so the read on line 51 raises
    [UnboundLocalError], a [NameError], before any global is looked at. *)
Theorem resolver_ignores_bound_global :
  let f_globals : gmap string (option string) := {[ "dlt" := Some "dlt" ]} in
  resolver_spec (E := string) f_globals (Some "dlt_mock_library") = inr "dlt"
  /\ _get_dlt_library (E := string) (fun _ => true) f_globals
       (Some "dlt_mock_library")
     = inr "dlt_mock_library"
  /\ resolver_spec (E := string) f_globals None = inr "dlt"
  /\ _get_dlt_library (E := string) (fun _ => true) f_globals None
     = inl (ModuleNotFoundError "dlt library was not found").
Proof. repeat split. Qed.

(** C2 fails without an engine: with both the condition and the
    configuration given and no handle injected, the call raises the
    module-not-found error, not UnsupportedExpectationConfiguration. *)
Lemma both_given_without_engine :
  let run :=
    wrapper_expect Stub.externals ∅ (Some "positive_col1") (Some "col1 > 0")
      None (Some "col1_not_null") None Stub.addColumn ["df"] [] in
  run.2 = inl (ModuleNotFoundError "dlt library was not found")
  /\ ~ exists msg, run.2 = inl (UnsupportedExpectationConfiguration msg).
Proof. split; [reflexivity|]. intros [msg Hmsg]. discriminate Hmsg. Qed.

(** [both_or_neither_rejected] on a run against the test double. *)
Lemma both_or_neither_rejected_witness :
  wrapper_expect Stub.externals ∅ (Some "positive_col1") (Some "col1 > 0")
    None (Some "col1_not_null") (Some "stub") Stub.addColumn ["df"] []
  = ([], inl (UnsupportedExpectationConfiguration msg_not_both))
  /\ wrapper_expect Stub.externals ∅ (Some "positive_col1") None
       None None (Some "stub") Stub.addColumn ["df"] []
     = ([], inl (UnsupportedExpectationConfiguration msg_at_least_one)).
Proof.
  split.
  - apply (proj1 (both_or_neither_rejected Stub.externals ∅
                    (Some "positive_col1") (Some "col1 > 0") None
                    (Some "col1_not_null") (Some "stub") Stub.addColumn
                    ["df"] [] "stub" eq_refl)); reflexivity.
  - apply (proj1 (proj2 (both_or_neither_rejected Stub.externals ∅
                           (Some "positive_col1") None None None
                           (Some "stub") Stub.addColumn ["df"] [] "stub"
                           eq_refl))); reflexivity.
Defined.

(** C3 fails when the checkpoint step does not return.  The condition
    alone is given, an engine is injected and there is a data context.
    The call [addColumn(df=df)] has no positional argument and raises
    IndexError; the call [addColumn(df)] with a checkpoint run that
    raises ends with that exception.  [addColumn] is called in neither. *)
Lemma exactly_one_yet_func_not_called :
  let no_argument :=
    wrapper_expect Stub.externals ∅ (Some "positive_col1") (Some "col1 > 0")
      (Some "context") None (Some "stub") Stub.addColumn [] [("df", "df")] in
  let failed_checkpoint :=
    wrapper_expect Stub.failing_checkpoint ∅ (Some "positive_col1")
      (Some "col1 > 0") (Some "context") None (Some "stub") Stub.addColumn
      ["df"] [] in
  exactly_one (Some "col1 > 0") (@None string) = true
  /\ _get_dlt_library (E := string) (has_version Stub.externals) ∅
       (Some "stub") = inr "stub"
  /\ no_argument.2 = inl (IndexError "tuple index out of range")
  /\ calls is_func no_argument.1 = []
  /\ failed_checkpoint.2 = inl (External "checkpoint failed")
  /\ calls is_func failed_checkpoint.1 = [].
Proof. repeat split. Qed.

(** [func_called_once_result_unchanged] on a run against the test double. *)
Lemma func_called_once_result_unchanged_witness :
  exists before,
    wrapper_expect Stub.externals ∅ (Some "positive_col1") (Some "col1 > 0")
      (Some "context") None (Some "stub") Stub.addColumn ["df"] []
    = (before ++ [EvFunc ["df"] []], inr "df_with_column")
    /\ calls is_func (before ++ [EvFunc ["df"] []]) = [EvFunc ["df"] []].
Proof.
  apply (func_called_once_result_unchanged Stub.externals ∅
           (Some "positive_col1") (Some "col1 > 0") (Some "context") None
           (Some "stub") Stub.addColumn ["df"] [] "stub"
           (Some {| name := Some "positive_col1"; condition := "col1 > 0" |})).
  - reflexivity.
  - reflexivity.
  - simpl. split; reflexivity.
  - reflexivity.
  - reflexivity.
Defined.

(** [no_engine_aborts_first] on a run against the test double. *)
Lemma no_engine_aborts_first_witness :
  wrapper_expect Stub.externals ∅ (Some "positive_col1") (Some "col1 > 0")
    (Some "context") (Some "col1_not_null") None Stub.addColumn ["df"] []
  = ([], inl (ModuleNotFoundError "dlt library was not found")).
Proof.
  apply (no_engine_aborts_first Stub.externals ∅); reflexivity.
Defined.

(** C5 fails when both options are given: with a data context, an
    injected engine and a first positional argument, the call ends at
    the both-or-neither check and the checkpoint is never run. *)
Lemma checkpoint_skipped_when_both_given :
  let run :=
    wrapper_expect Stub.externals ∅ (Some "positive_col1") (Some "col1 > 0")
      (Some "context") (Some "col1_not_null") (Some "stub") Stub.addColumn
      ["df"] [] in
  calls is_checkpoint run.1 = []
  /\ run.2 = inl (UnsupportedExpectationConfiguration msg_not_both).
Proof. split; reflexivity. Qed.

(** [checkpoint_gets_decoration_configuration] on a run against the test double. *)
Lemma checkpoint_gets_decoration_configuration_witness :
  let run :=
    wrapper_expect Stub.externals ∅ (Some "positive_col1") (Some "col1 > 0")
      (Some "context") None (Some "stub") Stub.addColumn ["df"] [] in
  calls is_checkpoint run.1 = [EvCheckpoint "context" "df" None]
  /\ exists rest,
       run.1 = EvTranslate [(Some "positive_col1", "col1 > 0")]
                 "expect_column_values_to_not_be_null"
               :: EvCheckpoint "context" "df" None :: rest.
Proof.
  pose proof (checkpoint_gets_decoration_configuration Stub.externals ∅
                (Some "positive_col1") (Some "col1 > 0") (Some "context")
                None (Some "stub") Stub.addColumn ["df"] [] "stub"
                (Some {| name := Some "positive_col1";
                         condition := "col1 > 0" |})
                "context" "df" eq_refl eq_refl eq_refl
                (conj eq_refl eq_refl) eq_refl) as [Hcalls Hcond].
  split; [exact Hcalls|].
  exact (proj2 (Hcond "col1 > 0" eq_refl)).
Defined.

(** C6 fails without an engine: the condition alone is given, so the
    both-or-neither check has nothing to reject, yet the call raises the
    module-not-found error and [addColumn] does not run. *)
Lemma func_skipped_without_engine :
  let run :=
    wrapper_expect Stub.externals ∅ (Some "positive_col1") (Some "col1 > 0")
      None None None Stub.addColumn ["df"] [] in
  exactly_one (Some "col1 > 0") (@None string) = true
  /\ calls is_func run.1 = []
  /\ run.2 = inl (ModuleNotFoundError "dlt library was not found").
Proof. repeat split. Qed.

(** [func_runs_iff_steps_return] on a run against the test double. *)
Lemma func_runs_iff_steps_return_witness :
  exists before,
    wrapper_expect Stub.externals ∅ (Some "positive_col1") (Some "col1 > 0")
      None None (Some "stub") Stub.addColumn ["df"] []
    = (before ++ [EvFunc ["df"] []], inr "df_with_column")
    /\ calls is_func before = [].
Proof.
  apply (proj1 (func_runs_iff_steps_return Stub.externals ∅
                  (Some "positive_col1") (Some "col1 > 0") None None
                  (Some "stub") Stub.addColumn ["df"] [])).
  exists "stub",
    (Some {| name := Some "positive_col1"; condition := "col1 > 0" |}).
  repeat split.
Defined.

(** C7 fails without an engine: with the condition alone and no handle
    injected, the translator is never called. *)
Lemma no_translation_without_engine :
  let run :=
    wrapper_expect Stub.externals ∅ (Some "positive_col1") (Some "col1 > 0")
      None None None Stub.addColumn ["df"] [] in
  run.1 = [] /\ calls is_translate run.1 = [].
Proof. split; reflexivity. Qed.

(** [condition_path_translates_single_pair] on a run against the test double. *)
Lemma condition_path_translates_single_pair_witness :
  let run :=
    wrapper_expect Stub.externals ∅ (Some "positive_col1") (Some "col1 > 0")
      None None (Some "stub") Stub.addColumn ["df"] [] in
  calls is_translate run.1
  = [EvTranslate [(Some "positive_col1", "col1 > 0")]
       "expect_column_values_to_not_be_null"].
Proof.
  exact (proj1 (proj2 (condition_path_translates_single_pair Stub.externals ∅
                         (Some "positive_col1") (Some "col1 > 0") None None
                         (Some "stub") Stub.addColumn ["df"] [] "stub"
                         "col1 > 0" eq_refl eq_refl eq_refl))).
Defined.

(** C8 fails when the checkpoint step does not return, and when the
    engine cannot register.  The configuration alone is given, an engine
    is injected, there is a data context and the factory answers an
    expectation.  The call [addColumn(df=df)] has no positional argument
    and raises IndexError; the call [addColumn(df)] with a checkpoint
    run that raises ends with that exception; the call [addColumn(df)]
    with an engine object that has no attribute [expect] raises
    AttributeError on line 143.  The registration is called in none. *)
Lemma expectation_produced_yet_not_registered :
  let no_argument :=
    wrapper_expect Stub.externals ∅ (Some "positive_col1") None
      (Some "context") (Some "col1_not_null") (Some "stub") Stub.addColumn
      [] [("df", "df")] in
  let failed_checkpoint :=
    wrapper_expect Stub.failing_checkpoint ∅ (Some "positive_col1") None
      (Some "context") (Some "col1_not_null") (Some "stub") Stub.addColumn
      ["df"] [] in
  let no_attribute :=
    wrapper_expect Stub.engine_without_expect ∅ (Some "positive_col1") None
      (Some "context") (Some "col1_not_null") (Some "stub") Stub.addColumn
      ["df"] [] in
  from_great_expectations_expectation Stub.externals "col1_not_null"
    (Some "positive_col1")
  = inr (Some {| name := Some "positive_col1"; condition := "col1_not_null" |})
  /\ no_argument.1 = [EvFactory "col1_not_null" (Some "positive_col1")]
  /\ no_argument.2 = inl (IndexError "tuple index out of range")
  /\ calls is_expect no_argument.1 = []
  /\ failed_checkpoint.2 = inl (External "checkpoint failed")
  /\ calls is_expect failed_checkpoint.1 = []
  /\ no_attribute.2 = inl (AttributeError "expect")
  /\ calls is_expect no_attribute.1 = [].
Proof. repeat split. Qed.

(** [configuration_path_registers] on a run against the test double. *)
Lemma configuration_path_registers_witness :
  exists rest,
    (wrapper_expect Stub.externals ∅ (Some "positive_col1") None
       (Some "context") (Some "col1_not_null") (Some "stub") Stub.addColumn
       ["df"] []).1
    = EvFactory "col1_not_null" (Some "positive_col1") :: rest
    /\ calls is_expect rest
       = [EvExpect "stub" (Some "positive_col1") "col1_not_null"]
    /\ calls is_factory rest = []
    /\ calls is_translate rest = [].
Proof.
  destruct (configuration_path_registers Stub.externals ∅
              (Some "positive_col1") None (Some "context")
              (Some "col1_not_null") (Some "stub") Stub.addColumn ["df"] []
              "stub" "col1_not_null" eq_refl eq_refl eq_refl)
    as (rest & Hlog & Hfactory & Htranslate & Hexpect).
  exists rest. split; [exact Hlog|]. split; [|split; assumption].
  apply (Hexpect {| name := Some "positive_col1";
                    condition := "col1_not_null" |}); reflexivity.
Defined.

(** C9 fails without an engine: with a data context, no positional
    argument and no handle injected, the call raises the
    module-not-found error, not IndexError. *)
Lemma zero_arguments_without_engine :
  let run :=
    wrapper_expect Stub.externals ∅ (Some "positive_col1") (Some "col1 > 0")
      (Some "context") None None Stub.addColumn [] [] in
  run.2 = inl (ModuleNotFoundError "dlt library was not found")
  /\ run.2 <> inl (IndexError "tuple index out of range").
Proof. split; [reflexivity|discriminate]. Qed.

(** [zero_arguments_index_error] on a run against the test double. *)
Lemma zero_arguments_index_error_witness :
  let run :=
    wrapper_expect Stub.externals ∅ (Some "positive_col1") (Some "col1 > 0")
      (Some "context") None (Some "stub") Stub.addColumn [] [] in
  run.2 = inl (IndexError "tuple index out of range")
  /\ calls is_func run.1 = []
  /\ calls is_checkpoint run.1 = []
  /\ calls is_expect run.1 = [].
Proof.
  apply (zero_arguments_index_error Stub.externals ∅
           (Some "positive_col1") (Some "col1 > 0") (Some "context") None
           (Some "stub") Stub.addColumn [] [] "stub"
           (Some {| name := Some "positive_col1"; condition := "col1 > 0" |})
           "context").
  - reflexivity.
  - reflexivity.
  - reflexivity.
  - reflexivity.
  - simpl. split; reflexivity.
Defined.

(** C10 fails when the checkpoint step does not return, and when the
    engine cannot register.  The condition alone is given, the name is
    left unset, an engine is injected and there is a data context.  The
    call [addColumn(df=df)] has no positional argument and raises
    IndexError; the call [addColumn(df)] with a checkpoint run that
    raises ends with that exception; the call [addColumn(df)] with an
    engine object that has no attribute [expect] raises AttributeError
    on line 143.  The registration is called in none. *)
Lemma null_name_yet_not_registered :
  let no_argument :=
    wrapper_expect Stub.externals ∅ None (Some "col1 > 0") (Some "context")
      None (Some "stub") Stub.addColumn [] [("df", "df")] in
  let failed_checkpoint :=
    wrapper_expect Stub.failing_checkpoint ∅ None (Some "col1 > 0")
      (Some "context") None (Some "stub") Stub.addColumn ["df"] [] in
  let no_attribute :=
    wrapper_expect Stub.engine_without_expect ∅ None (Some "col1 > 0")
      (Some "context") None (Some "stub") Stub.addColumn ["df"] [] in
  no_argument.2 = inl (IndexError "tuple index out of range")
  /\ calls is_expect no_argument.1 = []
  /\ failed_checkpoint.2 = inl (External "checkpoint failed")
  /\ calls is_expect failed_checkpoint.1 = []
  /\ no_attribute.2 = inl (AttributeError "expect")
  /\ calls is_expect no_attribute.1 = [].
Proof. repeat split. Qed.

(** [null_name_is_registered] on a run against the test double. *)
Lemma null_name_is_registered_witness :
  let run :=
    wrapper_expect Stub.externals ∅ None (Some "col1 > 0") (Some "context")
      None (Some "stub") Stub.addColumn ["df"] [] in
  calls is_expect run.1 = [EvExpect "stub" None "col1 > 0"].
Proof.
  exact (proj1 (proj2 (null_name_is_registered Stub.externals ∅ None
                         (Some "col1 > 0") (Some "context") None
                         (Some "stub") Stub.addColumn ["df"] [] "stub"
                         "col1 > 0" eq_refl eq_refl eq_refl eq_refl eq_refl
                         eq_refl eq_refl))).
Defined.

(** ** Further properties of the resolver and the wrapper *)

(** One step of the case analysis of a call, in the order of the
    source: the options of the decoration, then the answer of each
    collaborator as the wrapper reaches it. *)
Ltac wrapper_step :=
  first
    [ match goal with
      | |- context [match ?x with Some _ => _ | None => _ end] =>
          is_var x; destruct x eqn:?
      end
    | match goal with
      | |- context [is_not_None ?x] => is_var x; destruct x eqn:?
      end
    | match goal with
      | |- context [outcome (translate_dlt_expectation_to_expectation_config ?X ?a ?b)] =>
          destruct (translate_dlt_expectation_to_expectation_config X a b) eqn:?
      end
    | match goal with
      | |- context [outcome (from_great_expectations_expectation ?X ?a ?b)] =>
          destruct (from_great_expectations_expectation X a b) eqn:?
      end
    | match goal with
      | |- context [?l !! 0%nat] => is_var l; destruct l eqn:?
      end
    | match goal with
      | |- context [outcome (run_ge_checkpoint_on_dataframe_from_suite ?X ?a ?b ?c)] =>
          destruct (run_ge_checkpoint_on_dataframe_from_suite X a b c) eqn:?
      end
    | match goal with
      | |- context [has_expect ?X ?a] => destruct (has_expect X a) eqn:?
      end
    | match goal with
      | |- context [outcome (dlt_expect ?X ?a ?b ?c)] =>
          destruct (dlt_expect X a b c) eqn:?
      end ].

(** The answer of the decorated function. *)
Ltac func_step :=
  match goal with
  | |- context [outcome (?f ?a ?k)] => destruct (f a k) eqn:?
  end.

(** Every way a call of the wrapper can go. *)
Ltac wrapper_cases :=
  unfold_wrapper; rewrite ?_get_dlt_library_injected;
  repeat (simpl; wrapper_step); simpl.

Section Extras.
Context {ModuleT Config DataContext Obj E : Type}.

Variable X : Externals ModuleT Config DataContext Obj E.
Variable f_globals : gmap string (option ModuleT).
Variable dlt_expectation_name : option string.
Variable dlt_expectation_condition : option string.
Variable data_context : option DataContext.
Variable ge_expectation_configuration : option Config.
Variable dlt_library : option ModuleT.
Variable func : list Obj -> list (string * Obj) -> E + Obj.
Variable args : list Obj.
Variable kwargs : list (string * Obj).

(** X1.  With no engine bound to the global name [dlt], the resolver
    returns exactly the handle that was injected. *)
Theorem resolver_returns_injected_handle (hv : ModuleT -> bool) (m : ModuleT) :
  f_globals !! "dlt" = None ->
  _get_dlt_library (E := E) hv f_globals (Some m) = inr m.
Proof. intros _. rewrite _get_dlt_library_injected. reflexivity. Qed.

(** X2.  The only exception that leaves the resolver is the
    ModuleNotFoundError with its fixed message: the NameError of the
    probe on line 51 is always caught, and no AttributeError arises. *)
Theorem resolver_only_raises_module_not_found (hv : ModuleT -> bool)
    (e : exn E) :
  _get_dlt_library hv f_globals dlt_library = inl e ->
  e = ModuleNotFoundError "dlt library was not found".
Proof.
  rewrite _get_dlt_library_injected. destruct dlt_library; congruence.
Qed.

(** X3.  Of the exceptions the wrapper itself raises, none is a
    NameError or an UnboundLocalError: the local [dlt_expectation] is
    always bound when line 136 reads it.  Its only AttributeError is the
    one of line 143, for a resolved engine without the attribute
    [expect]; the registration and the decorated function are then not
    called. *)
Theorem dlt_expectation_always_bound (e : exn E) :
  (wrapper_expect X f_globals dlt_expectation_name dlt_expectation_condition
     data_context ge_expectation_configuration dlt_library func args kwargs).2
  = inl e ->
  is_unbound_name e = false
  /\ forall attr,
       e = AttributeError attr ->
       attr = "expect"
       /\ (exists dlt,
             _get_dlt_library (E := E) (has_version X) f_globals dlt_library
             = inr dlt
             /\ has_expect X dlt = false)
       /\ calls is_expect
            (wrapper_expect X f_globals dlt_expectation_name
               dlt_expectation_condition data_context
               ge_expectation_configuration dlt_library func args kwargs).1
          = []
       /\ calls is_func
            (wrapper_expect X f_globals dlt_expectation_name
               dlt_expectation_condition data_context
               ge_expectation_configuration dlt_library func args kwargs).1
          = [].
Proof.
  wrapper_cases; try func_step; simpl; intros ?; simplify_eq;
    (split; [reflexivity|]); intros attr ?; simplify_eq; eauto 10.
Qed.

(** X4.  A call that ends with the UnsupportedExpectationConfiguration
    of the wrapper's own check (lines 91 and 98; an exception that a
    collaborator or the decorated function raises is theirs, whatever
    its class) made no call at all, had an engine resolved, and its
    message tells the cause: the message of [msg_not_both] when both the
    condition and the configuration were given, that of
    [msg_at_least_one] when neither was. *)
Theorem unsupported_means_both_or_neither (msg : string) :
  (wrapper_expect X f_globals dlt_expectation_name dlt_expectation_condition
     data_context ge_expectation_configuration dlt_library func args kwargs).2
  = inl (UnsupportedExpectationConfiguration msg) ->
  (wrapper_expect X f_globals dlt_expectation_name dlt_expectation_condition
     data_context ge_expectation_configuration dlt_library func args kwargs).1
  = []
  /\ (exists dlt,
        _get_dlt_library (E := E) (has_version X) f_globals dlt_library
        = inr dlt)
  /\ (is_not_None dlt_expectation_condition = true
      /\ is_not_None ge_expectation_configuration = true
      /\ msg = msg_not_both
      \/ dlt_expectation_condition = None
         /\ ge_expectation_configuration = None
         /\ msg = msg_at_least_one).
Proof.
  wrapper_cases; try func_step; simpl; intros ?; simplify_eq; eauto 10.
Qed.

(** X5.  A call that ends with the IndexError of this module was
    decorated with a data context and made without positional
    arguments; the checkpoint, the registration and the decorated
    function were not called. *)
Theorem index_error_means_no_positional_argument (msg : string) :
  (wrapper_expect X f_globals dlt_expectation_name dlt_expectation_condition
     data_context ge_expectation_configuration dlt_library func args kwargs).2
  = inl (IndexError msg) ->
  is_not_None data_context = true
  /\ args = []
  /\ calls is_checkpoint
       (wrapper_expect X f_globals dlt_expectation_name
          dlt_expectation_condition data_context ge_expectation_configuration
          dlt_library func args kwargs).1 = []
  /\ calls is_expect
       (wrapper_expect X f_globals dlt_expectation_name
          dlt_expectation_condition data_context ge_expectation_configuration
          dlt_library func args kwargs).1 = []
  /\ calls is_func
       (wrapper_expect X f_globals dlt_expectation_name
          dlt_expectation_condition data_context ge_expectation_configuration
          dlt_library func args kwargs).1 = [].
Proof.
  wrapper_cases; try func_step; simpl; intros ?; simplify_eq; eauto 10.
Qed.

(** X6.  In one call of the wrapper the translator and the factory are
    never both called, and each of translation, checkpoint,
    registration and decorated function is called at most once. *)
Theorem each_collaborator_called_at_most_once :
  let log :=
    (wrapper_expect X f_globals dlt_expectation_name dlt_expectation_condition
       data_context ge_expectation_configuration dlt_library func args
       kwargs).1 in
  length (calls is_translate log) + length (calls is_factory log) <= 1
  /\ length (calls is_checkpoint log) <= 1
  /\ length (calls is_expect log) <= 1
  /\ length (calls is_func log) <= 1.
Proof.
  wrapper_cases; simpl; lia.
Qed.

(** X7.  With a data context, a call that registers the expectation
    has run the checkpoint before, on the first positional argument and
    with the configuration of the decoration, and that run returned.
    The checkpoint is the second entry of the log, right after the call
    of the translator with the pair of the decoration (condition path)
    or the call of the factory with the configuration and the name
    (configuration path); no other checkpoint, translator or factory
    call follows. *)
Theorem registration_follows_checkpoint (ctx : DataContext) :
  data_context = Some ctx ->
  calls is_expect
    (wrapper_expect X f_globals dlt_expectation_name dlt_expectation_condition
       data_context ge_expectation_configuration dlt_library func args
       kwargs).1 <> [] ->
  exists first df rest,
    args !! 0%nat = Some df
    /\ returns (run_ge_checkpoint_on_dataframe_from_suite X ctx df
                  ge_expectation_configuration) = true
    /\ (wrapper_expect X f_globals dlt_expectation_name
          dlt_expectation_condition data_context ge_expectation_configuration
          dlt_library func args kwargs).1
       = first :: EvCheckpoint ctx df ge_expectation_configuration :: rest
    /\ ((exists c,
           dlt_expectation_condition = Some c
           /\ first = EvTranslate [(dlt_expectation_name, c)]
                        "expect_column_values_to_not_be_null")
        \/ (exists cfg,
              dlt_expectation_condition = None
              /\ ge_expectation_configuration = Some cfg
              /\ first = EvFactory cfg dlt_expectation_name))
    /\ calls is_checkpoint rest = []
    /\ calls is_translate rest = []
    /\ calls is_factory rest = [].
Proof.
  intros ->. wrapper_cases; intros Hne;
    try (exfalso; apply Hne; reflexivity);
    do 3 eexists;
    (split; [reflexivity|]);
    (split; [match goal with
             | H : ?a = inr _ |- returns ?a = true => rewrite H; reflexivity
             end|]);
    (split; [reflexivity|]);
    (split; [eauto 10|]); repeat split.
Qed.

(** X8.  On the configuration path, when the factory answers [None]
    instead of an expectation (and the engine is resolved and the
    checkpoint step returns), nothing is registered and nothing is
    printed, and the decorated function is still called, last, with the
    arguments of the call; its outcome is the wrapper's. *)
Theorem factory_without_expectation_skips_registration (dlt : ModuleT)
    (cfg : Config) :
  _get_dlt_library (E := E) (has_version X) f_globals dlt_library = inr dlt ->
  dlt_expectation_condition = None ->
  ge_expectation_configuration = Some cfg ->
  from_great_expectations_expectation X cfg dlt_expectation_name = inr None ->
  checkpoint_returns X data_context ge_expectation_configuration args = true ->
  exists before,
    wrapper_expect X f_globals dlt_expectation_name dlt_expectation_condition
      data_context ge_expectation_configuration dlt_library func args kwargs
    = (before ++ [EvFunc args kwargs], outcome (func args kwargs))
    /\ calls is_expect before = []
    /\ calls is_print before = []
    /\ calls is_func before = [].
Proof.
  intros Hdlt -> -> Hfac Hchk. unfold_wrapper. rewrite Hdlt, Hfac.
  unfold checkpoint_returns in Hchk. simpl.
  destruct data_context as [ctx|]; simpl.
  - destruct args as [|df args']; try discriminate; simpl in *.
    destruct (run_ge_checkpoint_on_dataframe_from_suite X ctx df (Some cfg));
      try discriminate; simpl.
    exists [EvFactory cfg dlt_expectation_name; EvCheckpoint ctx df (Some cfg)].
    repeat split.
  - exists [EvFactory cfg dlt_expectation_name]. repeat split.
Qed.

(** X9.  The configuration the translator answers on the condition
    path is never used: two translators that both return on the one
    pair of the decoration give the same log and the same outcome. *)
Theorem translated_configuration_is_unused
    (translate : list (option string * string) -> string -> E + Config) :
  (forall c, dlt_expectation_condition = Some c ->
     returns (translate [(dlt_expectation_name, c)]
                "expect_column_values_to_not_be_null") = true
     /\ returns (translate_dlt_expectation_to_expectation_config X
                   [(dlt_expectation_name, c)]
                   "expect_column_values_to_not_be_null") = true) ->
  wrapper_expect (with_translator X translate) f_globals dlt_expectation_name
    dlt_expectation_condition data_context ge_expectation_configuration
    dlt_library func args kwargs
  = wrapper_expect X f_globals dlt_expectation_name dlt_expectation_condition
      data_context ge_expectation_configuration dlt_library func args kwargs.
Proof.
  intros Hret. unfold_wrapper. simpl.
  destruct dlt_expectation_condition as [c|]; [|reflexivity].
  destruct (Hret c eq_refl) as [Ht HX]. simpl.
  destruct (translate _ _); try discriminate.
  destruct (translate_dlt_expectation_to_expectation_config X _ _);
    try discriminate.
  reflexivity.
Qed.

(** X10.  Every registration goes to the engine the resolver returned.
    On the condition path it carries the name and the condition of the
    decoration unchanged; on the configuration path it carries the name
    and the condition of the expectation the factory answered. *)
Theorem registration_uses_resolved_engine
    (ev : event ModuleT Config DataContext Obj) :
  In ev (calls is_expect
           (wrapper_expect X f_globals dlt_expectation_name
              dlt_expectation_condition data_context
              ge_expectation_configuration dlt_library func args kwargs).1) ->
  exists dlt,
    _get_dlt_library (E := E) (has_version X) f_globals dlt_library = inr dlt
    /\ ((exists c,
           dlt_expectation_condition = Some c
           /\ ge_expectation_configuration = None
           /\ ev = EvExpect dlt dlt_expectation_name c)
        \/ (exists cfg e,
              dlt_expectation_condition = None
              /\ ge_expectation_configuration = Some cfg
              /\ from_great_expectations_expectation X cfg dlt_expectation_name
                 = inr (Some e)
              /\ ev = EvExpect dlt (name e) (condition e))).
Proof.
  wrapper_cases; intros Hin; try (destruct Hin as [<-|[]]); try contradiction;
    eexists; (split; [reflexivity|]); eauto 10.
Qed.

(** X11.  The keyword arguments of a call reach the decorated function
    and nothing else: with other keyword arguments the calls made
    before it are the same, and a call that does not reach the
    decorated function has the same log and the same exception. *)
Theorem keyword_arguments_only_reach_func (kwargs' : list (string * Obj)) :
  let run :=
    wrapper_expect X f_globals dlt_expectation_name dlt_expectation_condition
      data_context ge_expectation_configuration dlt_library func args kwargs in
  let run' :=
    wrapper_expect X f_globals dlt_expectation_name dlt_expectation_condition
      data_context ge_expectation_configuration dlt_library func args kwargs' in
  calls (fun ev => negb (is_func ev)) run'.1
  = calls (fun ev => negb (is_func ev)) run.1
  /\ (calls is_func run.1 = [] -> run' = run).
Proof.
  wrapper_cases; split; try reflexivity; try discriminate.
Qed.
End Extras.

Section ImportExtras.
Context {ModuleT Config DataContext Obj E : Type}.

Variable X : Externals ModuleT Config DataContext Obj E.
Variable answer : E + ModuleT.
Variable f_globals : gmap string (option ModuleT).
Variable dlt_expectation_name : option string.
Variable dlt_expectation_condition : option string.
Variable data_context : option DataContext.
Variable ge_expectation_configuration : option Config.
Variable passed : option (option ModuleT).
Variable func : list Obj -> list (string * Obj) -> E + Obj.
Variable args : list Obj.
Variable kwargs : list (string * Obj).


(** X13.  The engine that receives a registration is the library the
    caller passed to [expect]; the imported mock library is used only
    when the keyword is left out. *)
Theorem registration_engine_is_passed_or_imported
    (ev : event ModuleT Config DataContext Obj) :
  In ev (calls is_expect
           (import_then_call X answer f_globals dlt_expectation_name
              dlt_expectation_condition data_context
              ge_expectation_configuration passed func args kwargs).1) ->
  exists dlt n c,
    ev = EvExpect dlt n c
    /\ match passed with
       | Some lib => lib = Some dlt
       | None => answer = inr dlt
       end.
Proof.
  unfold import_then_call, import_dlt_mock_library, expect,
    decorator_expect, bind_dlt_library.
  destruct answer as [err|m], passed as [[lib|]|]; simpl;
    wrapper_cases; intros Hin;
    repeat (destruct Hin as [Hin|Hin]; try discriminate Hin);
    try contradiction; subst; eauto 10.
Qed.
End ImportExtras.

(** ** Runs of the further properties against the test double *)

(** [resolver_returns_injected_handle] with an empty global namespace. *)
Lemma resolver_returns_injected_handle_witness :
  _get_dlt_library (E := string) (fun _ : string => true) ∅ (Some "stub")
  = inr "stub".
Proof.
  apply (resolver_returns_injected_handle (E := string) ∅ (fun _ => true)
           "stub").
  reflexivity.
Defined.

(** [resolver_only_raises_module_not_found] without an injected handle. *)
Lemma resolver_only_raises_module_not_found_witness :
  _get_dlt_library (E := string) (fun _ : string => true) ∅ None
  = inl (ModuleNotFoundError "dlt library was not found")
  /\ (ModuleNotFoundError "dlt library was not found" : exn string)
     = ModuleNotFoundError "dlt library was not found".
Proof.
  split; [reflexivity|].
  apply (resolver_only_raises_module_not_found (E := string) ∅ None
           (fun _ : string => true)
           (ModuleNotFoundError "dlt library was not found")).
  reflexivity.
Defined.

(** [dlt_expectation_always_bound] on a call [addColumn(df)] with an
    engine object that has no attribute [expect]. *)
Lemma dlt_expectation_always_bound_witness :
  let run :=
    wrapper_expect Stub.engine_without_expect ∅ (Some "positive_col1")
      (Some "col1 > 0") (Some "context") None (Some "stub") Stub.addColumn
      ["df"] [] in
  run.2 = inl (AttributeError "expect")
  /\ is_unbound_name (E := string) (AttributeError "expect") = false
  /\ calls is_expect run.1 = []
  /\ calls is_func run.1 = [].
Proof.
  destruct (dlt_expectation_always_bound Stub.engine_without_expect ∅
              (Some "positive_col1") (Some "col1 > 0") (Some "context") None
              (Some "stub") Stub.addColumn ["df"] []
              (AttributeError "expect") eq_refl) as [Hname Hattr].
  destruct (Hattr "expect" eq_refl) as (_ & _ & Hexpect & Hfunc).
  split; [reflexivity|]. split; [exact Hname|]. split; assumption.
Defined.

(** [unsupported_means_both_or_neither] on a decoration without
    condition and configuration. *)
Lemma unsupported_means_both_or_neither_witness :
  (wrapper_expect Stub.externals ∅ (Some "positive_col1") None
     (Some "context") None (Some "stub") Stub.addColumn ["df"] []).1 = [].
Proof.
  exact (proj1 (unsupported_means_both_or_neither Stub.externals ∅
                  (Some "positive_col1") None (Some "context") None
                  (Some "stub") Stub.addColumn ["df"] [] msg_at_least_one
                  eq_refl)).
Defined.

(** [index_error_means_no_positional_argument] on the call
    [addColumn(df=df)]. *)
Lemma index_error_means_no_positional_argument_witness :
  calls is_checkpoint
    (wrapper_expect Stub.externals ∅ (Some "positive_col1") (Some "col1 > 0")
       (Some "context") None (Some "stub") Stub.addColumn [] [("df", "df")]).1
  = [].
Proof.
  exact (proj1 (proj2 (proj2
    (index_error_means_no_positional_argument Stub.externals ∅
       (Some "positive_col1") (Some "col1 > 0") (Some "context") None
       (Some "stub") Stub.addColumn [] [("df", "df")]
       "tuple index out of range" eq_refl)))).
Defined.

(** [registration_follows_checkpoint] on the call [addColumn(df)] with a
    data context. *)
Lemma registration_follows_checkpoint_witness :
  exists first df rest,
    ["df"] !! 0%nat = Some df
    /\ returns (run_ge_checkpoint_on_dataframe_from_suite Stub.externals
                  "context" df None) = true
    /\ (wrapper_expect Stub.externals ∅ (Some "positive_col1")
          (Some "col1 > 0") (Some "context") None (Some "stub")
          Stub.addColumn ["df"] []).1
       = first :: EvCheckpoint "context" df None :: rest
    /\ ((exists c,
           Some "col1 > 0" = Some c
           /\ first = EvTranslate [(Some "positive_col1", c)]
                        "expect_column_values_to_not_be_null")
        \/ (exists cfg,
              Some "col1 > 0" = None
              /\ @None string = Some cfg
              /\ first = EvFactory cfg (Some "positive_col1")))
    /\ calls is_checkpoint rest = []
    /\ calls is_translate rest = []
    /\ calls is_factory rest = [].
Proof.
  apply (registration_follows_checkpoint Stub.externals ∅
           (Some "positive_col1") (Some "col1 > 0") (Some "context") None
           (Some "stub") Stub.addColumn ["df"] [] "context").
  - reflexivity.
  - discriminate.
Defined.

(** [factory_without_expectation_skips_registration] with a factory that
    answers [None]. *)
Lemma factory_without_expectation_skips_registration_witness :
  exists before,
    wrapper_expect Stub.factory_without_expectation ∅ (Some "positive_col1")
      None (Some "context") (Some "col1_not_null") (Some "stub")
      Stub.addColumn ["df"] []
    = (before ++ [EvFunc ["df"] []], inr "df_with_column")
    /\ calls is_expect before = []
    /\ calls is_print before = []
    /\ calls is_func before = [].
Proof.
  apply (factory_without_expectation_skips_registration
           Stub.factory_without_expectation ∅ (Some "positive_col1") None
           (Some "context") (Some "col1_not_null") (Some "stub")
           Stub.addColumn ["df"] [] "stub" "col1_not_null");
    reflexivity.
Defined.

(** [translated_configuration_is_unused] with a translator that answers
    another configuration. *)
Lemma translated_configuration_is_unused_witness :
  wrapper_expect
    (with_translator Stub.externals (fun _ _ => inr "another configuration"))
    ∅ (Some "positive_col1") (Some "col1 > 0") (Some "context") None
    (Some "stub") Stub.addColumn ["df"] []
  = wrapper_expect Stub.externals ∅ (Some "positive_col1") (Some "col1 > 0")
      (Some "context") None (Some "stub") Stub.addColumn ["df"] [].
Proof.
  apply (translated_configuration_is_unused Stub.externals ∅
           (Some "positive_col1") (Some "col1 > 0") (Some "context") None
           (Some "stub") Stub.addColumn ["df"] []
           (fun _ _ => inr "another configuration")).
  intros c _. split; reflexivity.
Defined.

(** [registration_uses_resolved_engine] on the example of section 8. *)
Lemma registration_uses_resolved_engine_witness :
  exists dlt,
    _get_dlt_library (E := string) (has_version Stub.externals) ∅
      (Some "stub") = inr dlt
    /\ ((exists c,
           Some "col1 > 0" = Some c
           /\ @None string = None
           /\ (EvExpect "stub" (Some "positive_col1") "col1 > 0"
                 : event string string string string)
              = EvExpect dlt (Some "positive_col1") c)
        \/ (exists cfg e,
              Some "col1 > 0" = None
              /\ None = Some cfg
              /\ from_great_expectations_expectation Stub.externals cfg
                   (Some "positive_col1") = inr (Some e)
              /\ (EvExpect "stub" (Some "positive_col1") "col1 > 0"
                    : event string string string string)
                 = EvExpect dlt (name e) (condition e))).
Proof.
  apply (registration_uses_resolved_engine Stub.externals ∅
           (Some "positive_col1") (Some "col1 > 0") None None (Some "stub")
           Stub.addColumn ["df"] []
           (EvExpect "stub" (Some "positive_col1") "col1 > 0")).
  simpl. left. reflexivity.
Defined.

(** [keyword_arguments_only_reach_func] on a call without positional
    argument. *)
Lemma keyword_arguments_only_reach_func_witness :
  wrapper_expect Stub.externals ∅ (Some "positive_col1") (Some "col1 > 0")
    (Some "context") None (Some "stub") Stub.addColumn [] [("df", "df")]
  = wrapper_expect Stub.externals ∅ (Some "positive_col1") (Some "col1 > 0")
      (Some "context") None (Some "stub") Stub.addColumn [] [].
Proof.
  apply (proj2 (keyword_arguments_only_reach_func Stub.externals ∅
                  (Some "positive_col1") (Some "col1 > 0") (Some "context")
                  None (Some "stub") Stub.addColumn [] [] [("df", "df")])).
  reflexivity.
Defined.


(** [registration_engine_is_passed_or_imported] after a successful
    import, with another library passed. *)
Lemma registration_engine_is_passed_or_imported_witness :
  exists dlt n c,
    (EvExpect "stub" (Some "positive_col1") "col1 > 0"
       : event string string string string) = EvExpect dlt n c
    /\ Some "stub" = Some dlt.
Proof.
  apply (registration_engine_is_passed_or_imported Stub.externals
           (inr "dlt_mock_library") ∅ (Some "positive_col1")
           (Some "col1 > 0") None None (Some (Some "stub")) Stub.addColumn
           ["df"] [] (EvExpect "stub" (Some "positive_col1") "col1 > 0")).
  simpl. left. reflexivity.
Defined.
